(** * AskGenie: the Streamlit chat page [views/chat.py]

    A shallow embedding of the page script and of the session it keeps,
    followed by the properties of the conversation store and of the prompt
    that reaches the model client.

    Streamlit runs the page script from its first line to its last on every
    user action; [st.session_state] survives from one run to the next.  A run
    is modelled as a computation over the session state that may raise, and a
    session as a sequence of runs. *)

From Stdlib Require Import ZArith String Ascii.
From Stdlib Require Import Floats.PrimFloat.
From stdpp Require Import base option list strings gmap.


(** ** Data *)

(** One entry of [st.session_state.messages]: the dict
    [{"role": ..., "content": ...}].  A message of a prompt is represented
    the same way, by its role tag and its text. *)
Record Turn := mkTurn { role : string; content : string }.

#[global] Instance Turn_eq_dec : EqDecision Turn.
Proof. solve_decision. Defined.

(** Python exceptions the script can meet.  [External] carries whatever the
    model client raised, untouched. *)
Inductive Exn :=
| KeyError (key : string)
| AttributeError (name : string)
| ValueError (msg : string)
| External (kind msg : string).

#[global] Instance Exn_eq_dec : EqDecision Exn.
Proof. solve_decision. Defined.

(** The options of the two select boxes. *)
Inductive Language := English | Hindi | Spanish | French | German.
Inductive ModelType := LLaMA | Gemma2 | Mixtral.

Definition language_name (l : Language) : string :=
  match l with
  | English => "English"
  | Hindi => "Hindi"
  | Spanish => "Spanish"
  | French => "French"
  | German => "German"
  end.

Definition model_type_name (m : ModelType) : string :=
  match m with
  | LLaMA => "LLaMA 3.1-8B"
  | Gemma2 => "Gemma2 9B"
  | Mixtral => "Mixtral"
  end.

(** [model_dict], lines 11-15. *)
Definition model_dict : gmap string string :=
  <["LLaMA 3.1-8B" := "llama-3.1-8b-instant"]>
  (<["Gemma2 9B" := "gemma2-9b-it"]>
  (<["Mixtral" := "mixtral-8x7b-32768"]> ∅)).

(** [greetings], lines 79-85. *)
Definition greetings : gmap string string :=
  <["English" := "Hi! How can I assist you today?"]>
  (<["Spanish" := "¡Hola! ¿Cómo puedo ayudarte hoy?"]>
  (<["French" := "Bonjour! Comment puis-je vous aider aujourd'hui?"]>
  (<["German" := "Hallo! Wie kann ich Ihnen heute helfen?"]>
  (<["Hindi" := "नमस्ते! मैं आज आपकी कैसे मदद कर सकता हूँ?"]> ∅)))).

(** The keyword arguments of [ChatGroq(...)], lines 91-97. *)
Record ClientConfig := mkConfig {
  cfg_model : string;
  cfg_api_key : option string;
  cfg_temperature : float;
  cfg_max_tokens : Z;
  cfg_streaming : bool
}.

(** What the user sets on the page before a run: the two select boxes, the
    two sliders and the chat input box ([None] when nothing was sent). *)
Record Widgets := mkWidgets {
  w_language : Language;
  w_model_type : ModelType;
  w_temperature : float;
  w_max_tokens : Z;
  w_chat_input : option string
}.



(** The world outside the script during one run: the process environment
    and the model client.  The client is an external collaborator: its
    constructor may raise, and a call returns the text of the reply or
    raises. *)
Record Env := mkEnv {
  environ : gmap string string;
  ChatGroq_init : ClientConfig → option Exn;
  ChatGroq_invoke : ClientConfig → list Turn → Exn + string
}.

(** [st.session_state]: the four keys the script uses, each absent until
    the script first assigns it.  [ss_chat_history] is the message list of
    the [ChatMessageHistory] object. *)
Record Session := mkSession {
  ss_language : option string;
  ss_model : option string;
  ss_chat_history : option (list Turn);
  ss_messages : option (list Turn)
}.

Definition fresh_session : Session :=
  {| ss_language := None; ss_model := None;
     ss_chat_history := None; ss_messages := None |}.

(** The conversation store as a sequence: empty while the key is absent. *)
Definition stored (s : Session) : list Turn := default [] (ss_messages s).

(** What a run does that can be observed from outside the session. *)
Inductive Event :=
| Render (who text : string)
| Construct (cfg : ClientConfig)
| Invoke (cfg : ClientConfig) (prompt : list Turn)
| Stored (msgs : list Turn).

(** ** The script monad: state that survives an exception *)

Inductive Outcome (A : Type) :=
| Done (a : A)
| Raised (e : Exn).
Arguments Done {A} a.
Arguments Raised {A} e.

Record St := mkSt { session : Session; trace : list Event }.

Definition M (A : Type) : Type := St → Outcome A * St.

Definition ret {A} (a : A) : M A := λ st, (Done a, st).

Definition bind {A B} (m : M A) (k : A → M B) : M B :=
  λ st, match m st with
        | (Done a, st') => k a st'
        | (Raised e, st') => (Raised e, st')
        end.

Definition raise {A} (e : Exn) : M A := λ st, (Raised e, st).

Declare Scope script_scope.
Delimit Scope script_scope with script.
Notation "x <- m ;; k" := (bind m (λ x, k))
  (at level 100, m at next level, right associativity) : script_scope.
Notation "m ;; k" := (bind m (λ _, k))
  (at level 100, right associativity) : script_scope.
Local Open Scope script_scope.

Definition emit (ev : Event) : M unit :=
  λ st, (Done tt, {| session := session st; trace := trace st ++ [ev] |}).

Definition get_session : M Session := λ st, (Done (session st), st).

Definition put_session (s : Session) : M unit :=
  λ st, (Done tt, {| session := s; trace := trace st |}).

(** [d[key]] on a dict. *)
Definition subscript (d : gmap string string) (key : string) : M string :=
  match d !! key with
  | Some v => ret v
  | None => raise (KeyError key)
  end.

(** Reading [st.session_state.<name>]. *)
Definition attribute {A} (name : string) (field : Session → option A) : M A :=
  s <- get_session ;;
  match field s with
  | Some v => ret v
  | None => raise (AttributeError name)
  end.

Definition set_language (v : string) : M unit :=
  s <- get_session ;;
  put_session {| ss_language := Some v; ss_model := ss_model s;
                 ss_chat_history := ss_chat_history s;
                 ss_messages := ss_messages s |}.

Definition set_model (v : string) : M unit :=
  s <- get_session ;;
  put_session {| ss_language := ss_language s; ss_model := Some v;
                 ss_chat_history := ss_chat_history s;
                 ss_messages := ss_messages s |}.

Definition set_chat_history (h : list Turn) : M unit :=
  s <- get_session ;;
  put_session {| ss_language := ss_language s; ss_model := ss_model s;
                 ss_chat_history := Some h;
                 ss_messages := ss_messages s |}.

(** Every write of [st.session_state.messages] goes through here and leaves
    the new value in the trace. *)
Definition set_messages (l : list Turn) : M unit :=
  s <- get_session ;;
  put_session {| ss_language := ss_language s; ss_model := ss_model s;
                 ss_chat_history := ss_chat_history s;
                 ss_messages := Some l |} ;;
  emit (Stored l).

(** [st.session_state.messages.append(turn)]. *)
Definition messages_append (t : Turn) : M unit :=
  l <- attribute "messages" ss_messages ;;
  set_messages (l ++ [t]).

(** [with st.chat_message(who): st.write(text)]. *)
Definition chat_message (who text : string) : M unit := emit (Render who text).

(** ** The model client *)

(** [ChatGroq(model=..., api_key=..., ...)], lines 91-97: the script hands
    the arguments over and gets the client back, unless the constructor
    raises. *)
Definition ChatGroq (env : Env) (cfg : ClientConfig) : M ClientConfig :=
  emit (Construct cfg) ;;
  match ChatGroq_init env cfg with
  | Some e => raise e
  | None => ret cfg
  end.

(** The call of the client on a formatted prompt, the second stage of
    [chain = generic_template | model]. *)
Definition model_invoke (env : Env) (model : ClientConfig)
    (prompt : list Turn) : M string :=
  emit (Invoke model prompt) ;;
  match ChatGroq_invoke env model prompt with
  | inl e => raise e
  | inr text => ret text
  end.

(** ** The prompt template *)

(** The dict given to the chain: [{"language": ..., "messages": ...}]. *)
Record ChainInput := mkInput { language : string; messages : list Turn }.

Definition input_text (i : ChainInput) (key : string) : option string :=
  if String.eqb key "language" then Some (language i) else None.

Definition input_messages (i : ChainInput) (key : string)
  : option (list Turn) :=
  if String.eqb key "messages" then Some (messages i) else None.

(** Replacement of the [{name}] fields of a template text.  [field] holds
    the name read so far while the scan is between the braces.  The result
    is [None] when a name has no value or a brace is left open. *)
Fixpoint format_from (tpl : string) (field : option string)
    (vars : string → option string) : option string :=
  match tpl with
  | EmptyString =>
      match field with
      | None => Some EmptyString
      | Some _ => None
      end
  | String c rest =>
      match field with
      | None =>
          if Ascii.eqb c "{"%char then format_from rest (Some EmptyString) vars
          else option_map (String c) (format_from rest None vars)
      | Some name =>
          if Ascii.eqb c "}"%char then
            match vars name, format_from rest None vars with
            | Some v, Some r => Some (v +:+ r)
            | _, _ => None
            end
          else format_from rest (Some (name +:+ String c EmptyString)) vars
      end
  end.

Definition format (tpl : string) (vars : string → option string)
  : option string := format_from tpl None vars.

Inductive TemplatePart :=
| FromRole (tag text : string)
| MessagesPlaceholder (variable_name : string).

(** [generic_template], lines 116-121. *)
Definition system_template : string :=
  "You are a helpful assistant developed by Mitesh. Answer all questions to the best of your ability and give response in given {language} language.".

Definition generic_template : list TemplatePart :=
  [ FromRole "system" system_template;
    MessagesPlaceholder "messages" ].

(** [ChatPromptTemplate.format_messages]: each part in order, a text part
    as one message with its fields filled in, a placeholder as the messages
    bound to its variable.  The library builds a message object from each
    role/content pair and refuses a role it does not know; the pairs the
    page writes have the roles "user" and "assistant", which it knows, and
    this conversion is not part of the embedding. *)
Fixpoint format_messages (parts : list TemplatePart) (i : ChainInput)
  : M (list Turn) :=
  match parts with
  | [] => ret []
  | FromRole tag text :: parts' =>
      match format text (input_text i) with
      | Some body =>
          tl <- format_messages parts' i ;;
          ret (mkTurn tag body :: tl)
      | None => raise (KeyError text)
      end
  | MessagesPlaceholder name :: parts' =>
      match input_messages i name with
      | Some msgs =>
          tl <- format_messages parts' i ;;
          ret (msgs ++ tl)
      | None => raise (KeyError name)
      end
  end.

(** ** The history wrapper *)

(** [with_message_history.invoke(input, config)], lines 125-129 and 146-150.

    [RunnableWithMessageHistory] belongs to LangChain, not to this
    repository; its behaviour is taken from the library.  The script builds
    it with [input_messages_key] and without [history_messages_key].  In
    that configuration the wrapper
    - on entry puts the messages of the history returned by
      [get_chat_history], followed by the input messages, under the key
      "messages" before the wrapped chain runs;
    - when the chain has ended without an exception, takes the chain's
      input messages after the first [len(history)] of them, and adds them
      and the output message to the history.
    An exception of the chain leaves the history as it was. *)
Definition with_message_history_invoke (env : Env) (model : ClientConfig)
    (i : ChainInput) : M string :=
  hist <- attribute "chat_history" ss_chat_history ;;
  let merged := hist ++ messages i in
  prompt <- format_messages generic_template
              {| language := language i; messages := merged |} ;;
  response <- model_invoke env model prompt ;;
  let new_input := drop (length hist) merged in
  set_chat_history (hist ++ new_input ++ [mkTurn "assistant" response]) ;;
  ret response.

(** ** The page script *)

(** Truth value of [user_input] in [if user_input:]. *)
Definition truthy (x : option string) : bool :=
  match x with
  | Some s => negb (String.eqb s "")
  | None => false
  end.

Fixpoint for_each {A} (l : list A) (body : A → M unit) : M unit :=
  match l with
  | [] => ret tt
  | x :: l' => body x ;; for_each l' body
  end.

Definition init_chat_history : M unit :=
  s <- get_session ;;
  match ss_chat_history s with
  | None => set_chat_history []
  | Some _ => ret tt
  end.

Definition init_messages : M unit :=
  s <- get_session ;;
  match ss_messages s with
  | None => set_messages []
  | Some _ => ret tt
  end.

(** Lines 139-155, the branch taken when [user_input] is true. *)
Definition submit (env : Env) (model : ClientConfig) (user_input : string)
  : M unit :=
  messages_append (mkTurn "user" user_input) ;;
  chat_message "user" user_input ;;
  lang <- attribute "language" ss_language ;;
  msgs <- attribute "messages" ss_messages ;;
  response <- with_message_history_invoke env model
                {| language := lang;
                   messages := map (λ msg, mkTurn (role msg) (content msg)) msgs |} ;;
  messages_append (mkTurn "assistant" response) ;;
  chat_message "assistant" response.

(** Lines 157-160. *)
Definition greet : M unit :=
  lang <- attribute "language" ss_language ;;
  text <- subscript greetings lang ;;
  chat_message "" text.

(** Lines 18-76, the sidebar: the selections go to the session state and
    the slider values to the variables [temperature] and [max_tokens]. *)
Definition sidebar (w : Widgets) : M (float * Z) :=
  let language := language_name (w_language w) in
  set_language language ;;
  let model_type := model_type_name (w_model_type w) in
  (if String.eqb model_type "LLaMA 3.1-8B" then set_model "LLaMA 3.1-8B"
   else if String.eqb model_type "Gemma2 9B" then set_model "Gemma2 9B"
   else if String.eqb model_type "Mixtral" then set_model "Mixtral"
   else ret tt) ;;
  let temperature := w_temperature w in
  let max_tokens := w_max_tokens w in
  ret (temperature, max_tokens).

(** Lines 88-97. *)
Definition make_model (env : Env) (temperature : float) (max_tokens : Z)
  : M ClientConfig :=
  chosen <- attribute "model" ss_model ;;
  selected_model <- subscript model_dict chosen ;;
  ChatGroq env
    {| cfg_model := selected_model;
       cfg_api_key := environ env !! "GROQ_API_KEY";
       cfg_temperature := temperature;
       cfg_max_tokens := max_tokens;
       cfg_streaming := true |}.

(** Lines 105-134. *)
Definition show_history : M unit :=
  init_chat_history ;;
  init_messages ;;
  shown <- attribute "messages" ss_messages ;;
  for_each shown (λ msg, chat_message (role msg) (content msg)).

(** The whole of [chat.py], one run.  Headings, help texts and the model
    descriptions only draw on the page and are left out. *)
Definition script (w : Widgets) (env : Env) : M unit :=
  sliders <- sidebar w ;;
  model <- make_model env sliders.1 sliders.2 ;;
  show_history ;;
  match w_chat_input w with
  | Some user_input =>
      if truthy (Some user_input) then submit env model user_input else greet
  | None => greet
  end.

(** One run of the page on a session: how it ended, the session it left
    and what it did. *)
Record RunResult := mkResult {
  outcome : Outcome unit;
  after : Session;
  events : list Event
}.

Definition run_script (w : Widgets) (env : Env) (s : Session) : RunResult :=
  let '(o, st) := script w env {| session := s; trace := [] |} in
  {| outcome := o; after := session st; events := trace st |}.

(** A session: the runs of the page one after the other.  An exception
    ends the run it occurs in, not the session. *)
Fixpoint run_session (s : Session) (runs : list (Widgets * Env)) : Session :=
  match runs with
  | [] => s
  | (w, env) :: runs' => run_session (after (run_script w env s)) runs'
  end.

(** ** Readings of a trace *)

Definition is_invoke (ev : Event) : option (ClientConfig * list Turn) :=
  match ev with
  | Invoke cfg prompt => Some (cfg, prompt)
  | _ => None
  end.

Definition is_stored (ev : Event) : option (list Turn) :=
  match ev with
  | Stored l => Some l
  | _ => None
  end.

(** The calls of the model service made by a run, in order. *)
Definition service_calls (evs : list Event) : list (ClientConfig * list Turn) :=
  omap is_invoke evs.

(** The successive values given to the store by a run, in order. *)
Definition store_writes (evs : list Event) : list (list Turn) :=
  omap is_stored evs.

(** ** One run in closed form

    The definitions of this part restate nothing of the script: they name
    the values that the lemmas of the next part show a run to produce. *)

(** The client arguments a run builds from the widgets and the environment. *)
Definition client_config (w : Widgets) (env : Env) : ClientConfig :=
  {| cfg_model := default "" (model_dict !! model_type_name (w_model_type w));
     cfg_api_key := environ env !! "GROQ_API_KEY";
     cfg_temperature := w_temperature w;
     cfg_max_tokens := w_max_tokens w;
     cfg_streaming := true |}.

(** The session once the sidebar has run. *)
Definition entered (w : Widgets) (s : Session) : Session :=
  {| ss_language := Some (language_name (w_language w));
     ss_model := Some (model_type_name (w_model_type w));
     ss_chat_history := ss_chat_history s;
     ss_messages := ss_messages s |}.

Definition history (s : Session) : list Turn := default [] (ss_chat_history s).

(** The session once both keys have been initialised, holding [h] and [l]. *)
Definition holding (w : Widgets) (h l : list Turn) : Session :=
  {| ss_language := Some (language_name (w_language w));
     ss_model := Some (model_type_name (w_model_type w));
     ss_chat_history := Some h;
     ss_messages := Some l |}.

Definition init_writes (s : Session) : list Event :=
  match ss_messages s with
  | None => [Stored []]
  | Some _ => []
  end.

Definition renders (l : list Turn) : list Event :=
  map (λ msg, Render (role msg) (content msg)) l.

Definition system_message (lang : string) : Turn :=
  mkTurn "system"
    ("You are a helpful assistant developed by Mitesh. Answer all questions to the best of your ability and give response in given "
     +:+ lang +:+ " language.").

(** The prompt of a submission [u] made in session [s]. *)
Definition prompt_of (w : Widgets) (s : Session) (u : string) : list Turn :=
  system_message (language_name (w_language w))
  :: history s ++ stored s ++ [mkTurn "user" u].

(** What a run of [script] comes to, case by case: the constructor raises;
    nothing was sent; the call raises; the call answers. *)
Definition expected (w : Widgets) (env : Env) (s : Session) : RunResult :=
  let cfg := client_config w env in
  match ChatGroq_init env cfg with
  | Some e =>
      {| outcome := Raised e; after := entered w s; events := [Construct cfg] |}
  | None =>
      let shown := Construct cfg :: init_writes s ++ renders (stored s) in
      if truthy (w_chat_input w) then
        let u := default "" (w_chat_input w) in
        let asked := stored s ++ [mkTurn "user" u] in
        let prompt := prompt_of w s u in
        let sent := shown ++ [Stored asked; Render "user" u; Invoke cfg prompt] in
        match ChatGroq_invoke env cfg prompt with
        | inl e =>
            {| outcome := Raised e;
               after := holding w (history s) asked;
               events := sent |}
        | inr text =>
            let reply := mkTurn "assistant" text in
            {| outcome := Done tt;
               after := holding w (history s ++ asked ++ [reply]) (asked ++ [reply]);
               events := sent ++ [Stored (asked ++ [reply]); Render "assistant" text] |}
        end
      else
        {| outcome := Done tt;
           after := holding w (history s) (stored s);
           events := shown ++ [Render "" (default "" (greetings !! language_name (w_language w)))] |}
  end.

(** ** Vocabulary of the properties *)

(** The run carries a submission: [user_input] is true at line 139. *)
Definition submits (w : Widgets) : Prop := truthy (w_chat_input w) = true.

(** Every run of the sequence ends without an exception. *)
Fixpoint all_done (s : Session) (runs : list (Widgets * Env)) : Prop :=
  match runs with
  | [] => True
  | (w, env) :: runs' =>
      outcome (run_script w env s) = Done tt
      ∧ all_done (after (run_script w env s)) runs'
  end.

(** One step of an append-only store. *)
Definition grows_by_one (a b : list Turn) : Prop :=
  b = a ∨ ∃ t, b = a ++ [t].

Fixpoint stepwise (a : list Turn) (writes : list (list Turn)) : Prop :=
  match writes with
  | [] => True
  | b :: writes' => grows_by_one a b ∧ stepwise b writes'
  end.

Definition known_role (t : Turn) : Prop :=
  role t = "user" ∨ role t = "assistant".

Definition alternates (l : list Turn) : Prop :=
  ∀ (i : nat) (t : Turn),
    l !! i = Some t → role t = if Nat.even i then "user" else "assistant".

Definition contains (needle hay : string) : Prop :=
  ∃ pre post : string, hay = pre +:+ needle +:+ post.

(** The credential is of no use: the variable is unset, or the service
    refuses every call made with its value. *)
Definition credential_unusable (env : Env) : Prop :=
  environ env !! "GROQ_API_KEY" = None
  ∨ ∀ cfg prompt, cfg_api_key cfg = environ env !! "GROQ_API_KEY" →
      ∃ e, ChatGroq_invoke env cfg prompt = inl e.

(** A run that fails fast: it raises with the store never written and the
    service never called. *)
Definition fails_fast (r : RunResult) : Prop :=
  (∃ e, outcome r = Raised e)
  ∧ store_writes (events r) = []
  ∧ service_calls (events r) = [].

(** A submission that went through: its turn is in the store and the
    service was called. *)
Definition processed (u : string) (r : RunResult) : Prop :=
  mkTurn "user" u ∈ stored (after r) ∧ service_calls (events r) ≠ [].

(** The same page with the input box left empty. *)
Definition without_input (w : Widgets) : Widgets :=
  {| w_language := w_language w; w_model_type := w_model_type w;
     w_temperature := w_temperature w; w_max_tokens := w_max_tokens w;
     w_chat_input := None |}.

(** ** Sample worlds *)

(** The page as it first shows (line 23, 32, 67, 74), with a given input. *)
#[warnings="-inexact-float"]
Definition default_widgets (input : option string) : Widgets :=
  {| w_language := English; w_model_type := LLaMA;
     w_temperature := 0.7%float; w_max_tokens := 256;
     w_chat_input := input |}.

(** A client that accepts its arguments and answers [text]. *)
Definition replying (text : string) : Env :=
  {| environ := {[ "GROQ_API_KEY" := "gsk_live" ]};
     ChatGroq_init := λ _, None;
     ChatGroq_invoke := λ _ _, inr text |}.

(** A client whose constructor accepts any key and whose service refuses
    the call. *)
Definition refusing (e : Exn) : Env :=
  {| environ := {[ "GROQ_API_KEY" := "gsk_wrong" ]};
     ChatGroq_init := λ _, None;
     ChatGroq_invoke := λ _ _, inl e |}.

(** A client whose constructor raises. *)
Definition unconstructible (e : Exn) : Env :=
  {| environ := ∅;
     ChatGroq_init := λ _, Some e;
     ChatGroq_invoke := λ _ _, inl e |}.

Definition auth_error : Exn := External "AuthenticationError" "Invalid API Key".


(** ** Counting the submissions of a session *)

(** The number of runs of a sequence that carry a submission. *)
Fixpoint submissions (runs : list (Widgets * Env)) : nat :=
  match runs with
  | [] => 0
  | (w, _) :: runs' =>
      (if truthy (w_chat_input w) then 1 else 0) + submissions runs'
  end.

(** Every run of the sequence that carries a submission ends without an
    exception; the runs that carry none end as they may. *)
Fixpoint all_answered (s : Session) (runs : list (Widgets * Env)) : Prop :=
  match runs with
  | [] => True
  | (w, env) :: runs' =>
      (submits w → outcome (run_script w env s) = Done tt)
      ∧ all_answered (after (run_script w env s)) runs'
  end.


(** ** Further readings of a run and of a session *)

Definition is_render (ev : Event) : option (string * string) :=
  match ev with
  | Render who text => Some (who, text)
  | _ => None
  end.

Definition is_construct (ev : Event) : option ClientConfig :=
  match ev with
  | Construct cfg => Some cfg
  | _ => None
  end.

(** The chat messages a run draws on the page, in order, each with the
    name given to [st.chat_message]. *)
Definition drawn (evs : list Event) : list (string * string) :=
  omap is_render evs.

(** The clients a run constructs, in order. *)
Definition constructions (evs : list Event) : list ClientConfig :=
  omap is_construct evs.

(** A sequence of turns as the loop of lines 132-134 draws it. *)
Definition as_drawn (l : list Turn) : list (string * string) :=
  map (λ msg, (role msg, content msg)) l.

(** The calls of the model service made over the runs of a session. *)
Fixpoint session_calls (s : Session) (runs : list (Widgets * Env))
  : list (ClientConfig * list Turn) :=
  match runs with
  | [] => []
  | (w, env) :: runs' =>
      service_calls (events (run_script w env s))
      ++ session_calls (after (run_script w env s)) runs'
  end.

(** The number of user turns of a sequence. *)
Definition users (l : list Turn) : nat :=
  length (filter (λ t, role t = "user") l).

(** Every assistant turn stands right after a user turn. *)
Definition answers_follow_questions (l : list Turn) : Prop :=
  ∀ (i : nat) (t : Turn),
    l !! i = Some t → role t = "assistant" →
    ∃ q, i ≠ 0 ∧ l !! (i - 1) = Some q ∧ role q = "user".

(** * Properties *)

(** ** The phases of a run *)

Lemma model_dict_lookup (m : ModelType) :
  model_dict !! model_type_name m
  = Some (default "" (model_dict !! model_type_name m)).
Proof. destruct m; vm_compute; reflexivity. Qed.

Lemma greetings_lookup (l : Language) :
  greetings !! language_name l
  = Some (default "" (greetings !! language_name l)).
Proof. destruct l; vm_compute; reflexivity. Qed.

Lemma format_system (lang : string) (msgs : list Turn) :
  format system_template (input_text {| language := lang; messages := msgs |})
  = Some (content (system_message lang)).
Proof. reflexivity. Qed.

Lemma copy_turns (l : list Turn) :
  map (λ msg, mkTurn (role msg) (content msg)) l = l.
Proof. induction l as [|[r c] l IH]; simpl; [done | by rewrite IH]. Qed.

Lemma sidebar_run (w : Widgets) (st : St) :
  sidebar w st
  = (Done (w_temperature w, w_max_tokens w),
     {| session := entered w (session st); trace := trace st |}).
Proof. destruct w as [l m t n i]; destruct m; reflexivity. Qed.

Lemma for_each_render (l : list Turn) (st : St) :
  for_each l (λ msg, chat_message (role msg) (content msg)) st
  = (Done tt, {| session := session st; trace := trace st ++ renders l |}).
Proof.
  revert st. induction l as [|t l IH]; intros st; simpl.
  - rewrite app_nil_r. by destruct st.
  - unfold bind, chat_message, emit at 1. rewrite IH. simpl.
    by rewrite <- app_assoc.
Qed.

Lemma make_model_run (w : Widgets) (env : Env) (st : St) :
  ss_model (session st) = Some (model_type_name (w_model_type w)) →
  make_model env (w_temperature w) (w_max_tokens w) st
  = (match ChatGroq_init env (client_config w env) with
     | Some e => Raised e
     | None => Done (client_config w env)
     end,
     {| session := session st;
        trace := trace st ++ [Construct (client_config w env)] |}).
Proof.
  intros Hm. unfold make_model, attribute, bind at 1 2, get_session.
  rewrite Hm. unfold ret at 1, bind at 1, subscript.
  rewrite model_dict_lookup. unfold ret at 1, ChatGroq, bind, emit.
  fold (client_config w env).
  by destruct (ChatGroq_init env (client_config w env)).
Qed.

Lemma show_history_run (st : St) :
  show_history st
  = (Done tt,
     {| session :=
          {| ss_language := ss_language (session st);
             ss_model := ss_model (session st);
             ss_chat_history := Some (history (session st));
             ss_messages := Some (stored (session st)) |};
        trace := trace st ++ init_writes (session st)
                   ++ renders (stored (session st)) |}).
Proof.
  destruct st as [[lang m h l] tr].
  unfold show_history, bind at 1. unfold init_chat_history, init_messages.
  destruct h as [h|], l as [l|]; cbn -[for_each];
    rewrite for_each_render; cbn; by rewrite <- ?app_assoc.
Qed.

Lemma greet_run (w : Widgets) (h l : list Turn) (tr : list Event) :
  greet {| session := holding w h l; trace := tr |}
  = (Done tt,
     {| session := holding w h l;
        trace := tr ++ [Render "" (default "" (greetings !! language_name (w_language w)))] |}).
Proof.
  unfold greet, attribute, bind, get_session, subscript. cbn.
  by rewrite greetings_lookup.
Qed.

Lemma format_messages_generic (lang : string) (msgs : list Turn) (st : St) :
  format_messages generic_template {| language := lang; messages := msgs |} st
  = (Done (system_message lang :: msgs), st).
Proof.
  unfold generic_template. cbn [format_messages].
  rewrite format_system. cbn. by rewrite app_nil_r.
Qed.

Lemma with_message_history_invoke_run (w : Widgets) (env : Env)
    (cfg : ClientConfig) (h l : list Turn) (tr : list Event)
    (lang : string) (msgs : list Turn) :
  let prompt := system_message lang :: h ++ msgs in
  with_message_history_invoke env cfg {| language := lang; messages := msgs |}
    {| session := holding w h l; trace := tr |}
  = match ChatGroq_invoke env cfg prompt with
    | inl e =>
        (Raised e,
         {| session := holding w h l; trace := tr ++ [Invoke cfg prompt] |})
    | inr text =>
        (Done text,
         {| session := holding w (h ++ msgs ++ [mkTurn "assistant" text]) l;
            trace := tr ++ [Invoke cfg prompt] |})
    end.
Proof.
  intros prompt.
  unfold with_message_history_invoke, attribute, bind at 1 2, get_session.
  cbn [session holding ss_chat_history ret language messages].
  unfold bind at 1. rewrite format_messages_generic. fold prompt.
  unfold model_invoke, bind, emit. cbn [session trace].
  destruct (ChatGroq_invoke env cfg prompt) as [e|text]; [reflexivity|].
  cbn. by rewrite drop_app_length.
Qed.

Lemma submit_run (w : Widgets) (env : Env) (cfg : ClientConfig)
    (h l : list Turn) (tr : list Event) (u : string) :
  let lang := language_name (w_language w) in
  let asked := l ++ [mkTurn "user" u] in
  let prompt := system_message lang :: h ++ asked in
  let sent := tr ++ [Stored asked; Render "user" u; Invoke cfg prompt] in
  submit env cfg u {| session := holding w h l; trace := tr |}
  = match ChatGroq_invoke env cfg prompt with
    | inl e => (Raised e, {| session := holding w h asked; trace := sent |})
    | inr text =>
        let reply := mkTurn "assistant" text in
        (Done tt,
         {| session := holding w (h ++ asked ++ [reply]) (asked ++ [reply]);
            trace := sent ++ [Stored (asked ++ [reply]); Render "assistant" text] |})
    end.
Proof.
  intros lang asked prompt sent.
  unfold submit. unfold bind at 1.
  unfold messages_append, set_messages, attribute, bind at 1 2 3 4 5,
    get_session, put_session, emit.
  cbn [session holding ss_messages ss_language ss_model ss_chat_history ret trace].
  fold asked. unfold bind at 1, chat_message, emit at 1.
  cbn [session trace]. unfold bind at 1 2 3 4.
  cbn [session holding ss_messages ss_language ss_model ss_chat_history ret trace].
  unfold bind at 1. rewrite copy_turns.
  fold (holding w h asked). rewrite with_message_history_invoke_run.
  fold lang. fold prompt.
  destruct (ChatGroq_invoke env cfg prompt) as [e|text].
  - subst sent. by rewrite <- !app_assoc.
  - unfold bind, get_session, put_session, emit, ret. cbn.
    subst sent. by rewrite <- !app_assoc.
Qed.

Lemma script_run (w : Widgets) (env : Env) (s : Session) :
  run_script w env s = expected w env s.
Proof.
  unfold run_script, expected, script. unfold bind at 1.
  rewrite sidebar_run. cbn [fst snd]. unfold bind at 1.
  rewrite make_model_run by reflexivity. cbn [session trace app].
  destruct (ChatGroq_init env (client_config w env)) as [e|]; [reflexivity|].
  unfold bind at 1. rewrite show_history_run. cbn [session trace app].
  change (mkSession (ss_language (entered w s)) (ss_model (entered w s))
            (Some (history (entered w s))) (Some (stored (entered w s))))
    with (holding w (history s) (stored s)).
  change (init_writes (entered w s)) with (init_writes s).
  change (stored (entered w s)) with (stored s).
  destruct (w_chat_input w) as [u|]; cbn [from_option id truthy].
  - destruct (negb (u =? "")%string).
    + rewrite submit_run. unfold prompt_of.
      destruct (ChatGroq_invoke env (client_config w env) _); reflexivity.
    + by rewrite greet_run.
  - by rewrite greet_run.
Qed.

(** ** Reading the trace of a run *)

Lemma store_writes_app (a b : list Event) :
  store_writes (a ++ b) = store_writes a ++ store_writes b.
Proof. apply omap_app. Qed.

Lemma service_calls_app (a b : list Event) :
  service_calls (a ++ b) = service_calls a ++ service_calls b.
Proof. apply omap_app. Qed.

Lemma store_writes_renders (l : list Turn) : store_writes (renders l) = [].
Proof. induction l; [done | by cbn]. Qed.

Lemma service_calls_renders (l : list Turn) : service_calls (renders l) = [].
Proof. induction l; [done | by cbn]. Qed.

Lemma service_calls_init_writes (s : Session) :
  service_calls (init_writes s) = [].
Proof. unfold init_writes. by destruct (ss_messages s). Qed.

Lemma store_writes_cons (ev : Event) (evs : list Event) :
  store_writes (ev :: evs) = from_option (λ l, [l]) [] (is_stored ev) ++ store_writes evs.
Proof. unfold store_writes. cbn. by destruct (is_stored ev). Qed.

Lemma service_calls_cons (ev : Event) (evs : list Event) :
  service_calls (ev :: evs) = from_option (λ c, [c]) [] (is_invoke ev) ++ service_calls evs.
Proof. unfold service_calls. cbn. by destruct (is_invoke ev). Qed.

Create Rewrite HintDb trace.
#[local] Hint Rewrite store_writes_app service_calls_app store_writes_renders
  service_calls_renders service_calls_init_writes store_writes_cons
  service_calls_cons : trace.

(** The initial write leaves the sequence as it was. *)
Lemma stepwise_init_writes (s : Session) (rest : list (list Turn)) :
  stepwise (stored s) rest →
  stepwise (stored s) (store_writes (init_writes s) ++ rest).
Proof.
  unfold init_writes, stored. destruct (ss_messages s); cbn; [done|].
  intros H. split; [by left | done].
Qed.

Lemma last_init_writes (s : Session) :
  default (stored s) (last (store_writes (init_writes s))) = stored s.
Proof. unfold init_writes, stored. by destruct (ss_messages s). Qed.

(** What a run leaves in the store: nothing new, the user turn alone, or
    the user turn and its answer. *)
Lemma run_stored (w : Widgets) (env : Env) (s : Session) :
  let r := run_script w env s in
  stored (after r) = stored s
  ∨ (∃ u e, w_chat_input w = Some u ∧ u ≠ "" ∧ outcome r = Raised e
       ∧ stored (after r) = stored s ++ [mkTurn "user" u])
  ∨ (∃ u text, w_chat_input w = Some u ∧ u ≠ "" ∧ outcome r = Done tt
       ∧ stored (after r)
         = stored s ++ [mkTurn "user" u; mkTurn "assistant" text]).
Proof.
  cbn zeta. rewrite script_run. unfold expected.
  destruct (ChatGroq_init env (client_config w env)); [by left|].
  destruct (w_chat_input w) as [u|]; cbn [truthy from_option id]; [|by left].
  destruct (String.eqb_spec u "") as [->|Hu]; cbn [negb]; [by left|].
  destruct (ChatGroq_invoke env (client_config w env) _) as [e|text]; right.
  - left. by exists u, e.
  - right. exists u, text. cbn. by rewrite <- app_assoc.
Qed.

(** A run that carries no submission leaves the store alone. *)
Lemma run_idle (w : Widgets) (env : Env) (s : Session) :
  truthy (w_chat_input w) = false →
  stored (after (run_script w env s)) = stored s.
Proof.
  intros Hi. rewrite script_run. unfold expected.
  destruct (ChatGroq_init env (client_config w env)); [done|].
  by rewrite Hi.
Qed.

Lemma truthy_true (x : option string) :
  truthy x = true ↔ ∃ u, x = Some u ∧ u ≠ "".
Proof.
  destruct x as [u|]; cbn.
  - destruct (String.eqb_spec u ""); cbn; split; try done.
    + intros (u' & [= <-] & Hu). done.
    + intros _. by exists u.
  - split; [done | by intros (u & ? & _)].
Qed.

(** ** The conversation store *)

Lemma run_prefix (w : Widgets) (env : Env) (s : Session) :
  stored s `prefix_of` stored (after (run_script w env s)).
Proof.
  destruct (run_stored w env s) as [H|[(u & e & _ & _ & _ & H)|(u & t & _ & _ & _ & H)]];
    rewrite H.
  - done.
  - by apply prefix_app_r.
  - by apply prefix_app_r.
Qed.

Lemma session_prefix (s : Session) (runs : list (Widgets * Env)) :
  stored s `prefix_of` stored (run_session s runs).
Proof.
  revert s. induction runs as [|[w env] runs IH]; intros s; cbn; [done|].
  etrans; [apply run_prefix | apply IH].
Qed.

Lemma run_writes (w : Widgets) (env : Env) (s : Session) :
  let r := run_script w env s in
  stepwise (stored s) (store_writes (events r))
  ∧ stored (after r) = default (stored s) (last (store_writes (events r))).
Proof.
  cbn zeta. rewrite script_run. unfold expected.
  destruct (ChatGroq_init env (client_config w env)); [by cbn|].
  destruct (truthy (w_chat_input w)).
  - destruct (ChatGroq_invoke env (client_config w env) _) as [e|text];
      cbn [events after]; autorewrite with trace;
      cbn [is_stored is_invoke from_option app store_writes omap list_omap];
      rewrite ?app_nil_r.
    + split.
      * apply stepwise_init_writes. cbn. split; [right; eauto | done].
      * by rewrite last_snoc.
    + split.
      * rewrite <- app_assoc. apply stepwise_init_writes. cbn.
        split; [right; eauto | split; [right; eauto | done]].
      * by rewrite last_snoc.
  - cbn [events after]. autorewrite with trace.
    cbn [is_stored is_invoke from_option app store_writes omap list_omap].
    rewrite ?app_nil_r. split.
    + rewrite <- (app_nil_r (store_writes _)). by apply stepwise_init_writes.
    + by rewrite last_init_writes.
Qed.

(** C5. The conversation store is append-only.  Within a run, every write
    of the store leaves the sequence as it was or adds one turn at its end,
    and the store the run leaves is the last value written (the one it
    found, when it wrote nothing).  Across the runs of a session, the
    sequence found at any moment stays a prefix of every later one: no turn
    is changed, moved or removed, and turns stand in the order they were
    added. *)
Theorem store_is_append_only :
  (∀ (w : Widgets) (env : Env) (s : Session),
     let r := run_script w env s in
     stepwise (stored s) (store_writes (events r))
     ∧ stored (after r) = default (stored s) (last (store_writes (events r))))
  ∧ (∀ (s : Session) (runs : list (Widgets * Env)),
       ∃ added, stored (run_session s runs) = stored s ++ added).
Proof.
  split.
  - apply run_writes.
  - intros s runs. apply (session_prefix s runs).
Qed.

Lemma run_submission_done (w : Widgets) (env : Env) (s : Session) :
  submits w → outcome (run_script w env s) = Done tt →
  ∃ u text, w_chat_input w = Some u ∧ u ≠ ""
    ∧ stored (after (run_script w env s))
      = stored s ++ [mkTurn "user" u; mkTurn "assistant" text].
Proof.
  intros Hs Hd. apply truthy_true in Hs as (u & Hu & Hne).
  revert Hd. rewrite script_run. unfold expected.
  destruct (ChatGroq_init env (client_config w env)); [done|].
  rewrite Hu. cbn [truthy from_option id].
  destruct (String.eqb_spec u ""); [done|]. cbn [negb].
  destruct (ChatGroq_invoke env (client_config w env) _) as [e|text]; [done|].
  intros _. exists u, text. cbn. by rewrite <- app_assoc.
Qed.

Lemma session_length (s : Session) (runs : list (Widgets * Env)) :
  all_answered s runs →
  length (stored (run_session s runs))
  = length (stored s) + 2 * submissions runs.
Proof.
  revert s. induction runs as [|[w env] runs IH]; intros s Hd;
    cbn [run_session submissions].
  - lia.
  - destruct Hd as [Hd Hds]. rewrite (IH _ Hds). unfold submits in Hd.
    destruct (truthy (w_chat_input w)) eqn:Ht.
    + destruct (run_submission_done w env s Ht (Hd eq_refl))
        as (u & text & _ & _ & Hst).
      rewrite Hst, length_app. cbn. lia.
    + rewrite (run_idle w env s Ht). lia.
Qed.

(** C2. In a new session, after any runs of which [N] carry a submission,
    each of these ending without an exception (so that its call of the
    model service answered), the store holds exactly [2 * N] turns.  The
    runs that carry no submission (the first load of the page, a change in
    the sidebar) may stand anywhere among them and may end as they will. *)
Theorem store_length_after_submissions (N : nat)
    (runs : list (Widgets * Env)) :
  submissions runs = N →
  all_answered fresh_session runs →
  length (stored (run_session fresh_session runs)) = 2 * N.
Proof.
  intros <- Hd. by rewrite (session_length _ _ Hd).
Qed.

Lemma store_length_after_submissions_witness :
  length (stored (run_session fresh_session
                    [(default_widgets None, replying "unused");
                     (default_widgets (Some "a"), replying "x");
                     (mkWidgets Hindi Gemma2 1%float 64 None,
                      unconstructible auth_error);
                     (default_widgets (Some "b"), replying "y");
                     (default_widgets (Some ""), replying "unused")]))
  = 2 * 2.
Proof.
  apply store_length_after_submissions.
  - reflexivity.
  - cbn [all_answered]. split_and!; try done; intros _; by vm_compute.
Defined.

Lemma run_done_stored (w : Widgets) (env : Env) (s : Session) :
  outcome (run_script w env s) = Done tt →
  stored (after (run_script w env s)) = stored s
  ∨ ∃ u text, stored (after (run_script w env s))
              = stored s ++ [mkTurn "user" u; mkTurn "assistant" text].
Proof.
  intros Hd.
  destruct (run_stored w env s)
    as [H|[(u & e & _ & _ & He & _)|(u & t & _ & _ & _ & H)]].
  - by left.
  - congruence.
  - right. by exists u, t.
Qed.

Lemma run_known_roles (w : Widgets) (env : Env) (s : Session) :
  Forall known_role (stored s) →
  Forall known_role (stored (after (run_script w env s))).
Proof.
  intros Hs.
  destruct (run_stored w env s)
    as [H|[(u & e & _ & _ & _ & H)|(u & t & _ & _ & _ & H)]]; rewrite H.
  - done.
  - apply Forall_app. split; [done|].
    apply Forall_cons. split; [by left | constructor].
  - apply Forall_app. split; [done|].
    apply Forall_cons. split; [by left|].
    apply Forall_cons. split; [by right | constructor].
Qed.

Lemma session_known_roles (s : Session) (runs : list (Widgets * Env)) :
  Forall known_role (stored s) →
  Forall known_role (stored (run_session s runs)).
Proof.
  revert s. induction runs as [|[w env] runs IH]; intros s Hs; cbn; [done|].
  by apply IH, run_known_roles.
Qed.

Lemma alternates_exchange (l : list Turn) (u text : string) :
  Nat.even (length l) = true → alternates l →
  alternates (l ++ [mkTurn "user" u; mkTurn "assistant" text]).
Proof.
  intros Hev Hl i t Hi.
  destruct (decide (i < length l)) as [Hlt|Hge].
  - rewrite lookup_app_l in Hi by done. by apply Hl.
  - rewrite lookup_app_r in Hi by lia.
    replace i with (length l + (i - length l)) by lia.
    destruct (i - length l) as [|[|k]] eqn:Hk; cbn in Hi.
    + injection Hi as <-. rewrite Nat.add_0_r, Hev. done.
    + injection Hi as <-. rewrite Nat.add_1_r, Nat.even_succ, <- Nat.negb_even, Hev.
      done.
    + done.
Qed.

Lemma session_alternates (s : Session) (runs : list (Widgets * Env)) :
  all_done s runs →
  Nat.even (length (stored s)) = true → alternates (stored s) →
  Nat.even (length (stored (run_session s runs))) = true
  ∧ alternates (stored (run_session s runs)).
Proof.
  revert s. induction runs as [|[w env] runs IH]; intros s Hd Hev Hal; cbn.
  - done.
  - destruct Hd as [Hd Hds].
    destruct (run_done_stored w env s Hd) as [H|(u & text & H)].
    + apply IH; [done | by rewrite H | by rewrite H].
    + apply IH; [done | |]; rewrite H.
      * rewrite length_app, Nat.even_add, Hev. done.
      * by apply alternates_exchange.
Qed.

(** C10. Every turn of the store of a session has role "user" or
    "assistant", whatever the runs; and when every run of the session ends
    without an exception (no call of the client failed), the turns of the
    store alternate, a user turn at every even position counted from 0 and
    an assistant turn at every odd one. *)
Theorem roles_of_stored_turns :
  (∀ runs : list (Widgets * Env),
     Forall known_role (stored (run_session fresh_session runs)))
  ∧ (∀ runs : list (Widgets * Env),
       all_done fresh_session runs →
       alternates (stored (run_session fresh_session runs))).
Proof.
  split.
  - intros runs. apply session_known_roles. constructor.
  - intros runs Hd. by apply session_alternates.
Qed.

Lemma roles_of_stored_turns_witness :
  alternates
    (stored (run_session fresh_session
               [(default_widgets (Some "a"), replying "x");
                (default_widgets None, replying "unused");
                (default_widgets (Some "b"), replying "y")])).
Proof.
  apply (proj2 roles_of_stored_turns). vm_compute. repeat split.
Defined.

(** ** The calls of the model service *)

Lemma run_service_calls (w : Widgets) (env : Env) (s : Session) :
  service_calls (events (run_script w env s))
  = match ChatGroq_init env (client_config w env), w_chat_input w with
    | None, Some u =>
        if negb (u =? "")%string
        then [(client_config w env, prompt_of w s u)]
        else []
    | _, _ => []
    end.
Proof.
  rewrite script_run. unfold expected.
  destruct (ChatGroq_init env (client_config w env)); [done|].
  destruct (w_chat_input w) as [u|]; cbn [truthy from_option id].
  - destruct (negb (u =? "")%string).
    + destruct (ChatGroq_invoke env (client_config w env) _); cbn [events];
        autorewrite with trace;
        by cbn [is_invoke from_option app service_calls omap list_omap].
    + cbn [events]. autorewrite with trace.
      by cbn [is_invoke from_option app service_calls omap list_omap].
  - cbn [events]. autorewrite with trace.
    by cbn [is_invoke from_option app service_calls omap list_omap].
Qed.

Lemma run_first_event (w : Widgets) (env : Env) (s : Session) :
  head (events (run_script w env s)) = Some (Construct (client_config w env)).
Proof.
  rewrite script_run. unfold expected.
  destruct (ChatGroq_init env (client_config w env)); [done|].
  destruct (truthy (w_chat_input w)); [|done].
  by destruct (ChatGroq_invoke env (client_config w env) _).
Qed.

(** The call a run made, read back from its trace. *)
Lemma run_called (w : Widgets) (env : Env) (s : Session)
    (cfg : ClientConfig) (prompt : list Turn) :
  (cfg, prompt) ∈ service_calls (events (run_script w env s)) →
  ∃ u, w_chat_input w = Some u ∧ u ≠ ""
    ∧ ChatGroq_init env (client_config w env) = None
    ∧ cfg = client_config w env ∧ prompt = prompt_of w s u.
Proof.
  rewrite run_service_calls.
  destruct (ChatGroq_init env (client_config w env)); [by intros ?%elem_of_nil|].
  destruct (w_chat_input w) as [u|]; [|by intros ?%elem_of_nil].
  destruct (String.eqb_spec u ""); cbn [negb]; [by intros ?%elem_of_nil|].
  intros [= -> ->]%list_elem_of_singleton. by exists u.
Qed.

(** C3. When the call of the model service made for a submission raises,
    the run ends with that very exception; the service was called once and
    only once; and the store is the one found with the user turn of the
    submission added at its end, unanswered. *)
Theorem service_error_propagates (w : Widgets) (env : Env) (s : Session)
    (u : string) (cfg : ClientConfig) (prompt : list Turn) (e : Exn) :
  w_chat_input w = Some u →
  (cfg, prompt) ∈ service_calls (events (run_script w env s)) →
  ChatGroq_invoke env cfg prompt = inl e →
  let r := run_script w env s in
  outcome r = Raised e
  ∧ service_calls (events r) = [(cfg, prompt)]
  ∧ stored (after r) = stored s ++ [mkTurn "user" u]
  ∧ last (stored (after r)) = Some (mkTurn "user" u)
  ∧ history (after r) = history s.
Proof.
  intros Hu Hin He r.
  destruct (run_called _ _ _ _ _ Hin) as (u' & Hu' & Hne & Hinit & -> & ->).
  assert (u' = u) as -> by congruence.
  subst r. split_and!.
  - rewrite script_run. unfold expected. rewrite Hinit, Hu.
    cbn [truthy from_option id]. destruct (String.eqb_spec u ""); [done|].
    cbn [negb]. by rewrite He.
  - rewrite run_service_calls, Hinit, Hu.
    by destruct (String.eqb_spec u "").
  - rewrite script_run. unfold expected. rewrite Hinit, Hu.
    cbn [truthy from_option id]. destruct (String.eqb_spec u ""); [done|].
    cbn [negb]. by rewrite He.
  - rewrite script_run. unfold expected. rewrite Hinit, Hu.
    cbn [truthy from_option id]. destruct (String.eqb_spec u ""); [done|].
    cbn [negb]. rewrite He. cbn. by rewrite last_snoc.
  - rewrite script_run. unfold expected. rewrite Hinit, Hu.
    cbn [truthy from_option id]. destruct (String.eqb_spec u ""); [done|].
    cbn [negb]. by rewrite He.
Qed.

Lemma service_error_propagates_witness :
  let r := run_script (default_widgets (Some "third")) (refusing auth_error)
             (run_session fresh_session
                [(default_widgets (Some "first"), replying "x");
                 (default_widgets (Some "second"), replying "y")]) in
  outcome r = Raised auth_error
  ∧ last (stored (after r)) = Some (mkTurn "user" "third").
Proof.
  pose proof (service_error_propagates
    (default_widgets (Some "third")) (refusing auth_error)
    (run_session fresh_session
       [(default_widgets (Some "first"), replying "x");
        (default_widgets (Some "second"), replying "y")])
    "third"
    (client_config (default_widgets (Some "third")) (refusing auth_error))
    (prompt_of (default_widgets (Some "third"))
       (run_session fresh_session
          [(default_widgets (Some "first"), replying "x");
           (default_widgets (Some "second"), replying "y")]) "third")
    auth_error) as H.
  cbn zeta in *.
  destruct H as (Ho & _ & _ & Hl & _).
  - reflexivity.
  - vm_compute. left.
  - reflexivity.
  - split; [exact Ho | exact Hl].
Defined.

(** C4. With Hindi selected, every call of the model service made by a
    run has a prompt that begins with the system message, and the text of
    that message contains "Hindi". *)
Theorem hindi_system_instruction (w : Widgets) (env : Env) (s : Session)
    (cfg : ClientConfig) (prompt : list Turn) :
  w_language w = Hindi →
  (cfg, prompt) ∈ service_calls (events (run_script w env s)) →
  ∃ (instruction : Turn) (rest : list Turn),
    prompt = instruction :: rest
    ∧ role instruction = "system"
    ∧ format system_template
        (input_text {| language := "Hindi"; messages := rest |})
      = Some (content instruction)
    ∧ contains "Hindi" (content instruction).
Proof.
  intros Hl Hin.
  destruct (run_called _ _ _ _ _ Hin) as (u & _ & _ & _ & _ & ->).
  unfold prompt_of. rewrite Hl. cbn [language_name].
  eexists _, _. split_and!; [reflexivity | reflexivity | reflexivity |].
  by exists "You are a helpful assistant developed by Mitesh. Answer all questions to the best of your ability and give response in given ", " language.".
Qed.

Lemma hindi_system_instruction_witness :
  ∃ (instruction : Turn) (rest : list Turn),
    prompt_of (mkWidgets Hindi Gemma2 1%float 64 (Some "namaste"))
      fresh_session "namaste"
    = instruction :: rest
    ∧ role instruction = "system"
    ∧ format system_template
        (input_text {| language := "Hindi"; messages := rest |})
      = Some (content instruction)
    ∧ contains "Hindi" (content instruction).
Proof.
  apply (hindi_system_instruction
           (mkWidgets Hindi Gemma2 1%float 64 (Some "namaste"))
           (replying "x") fresh_session
           (client_config (mkWidgets Hindi Gemma2 1%float 64 (Some "namaste"))
              (replying "x"))).
  - reflexivity.
  - vm_compute. left.
Defined.

(** C6. "Hello" sent into a new session, the run ending without an
    exception: the service was called once and answered some text; the
    store, created empty, became [[(user, "Hello")]] and then
    [[(user, "Hello"); (assistant, text)]], which is what the run leaves. *)
Theorem hello_scenario (w : Widgets) (env : Env) :
  w_chat_input w = Some "Hello" →
  let r := run_script w env fresh_session in
  outcome r = Done tt →
  ∃ (cfg : ClientConfig) (prompt : list Turn) (text : string),
    service_calls (events r) = [(cfg, prompt)]
    ∧ ChatGroq_invoke env cfg prompt = inr text
    ∧ store_writes (events r)
      = [ [];
          [mkTurn "user" "Hello"];
          [mkTurn "user" "Hello"; mkTurn "assistant" text] ]
    ∧ stored (after r) = [mkTurn "user" "Hello"; mkTurn "assistant" text].
Proof.
  intros Hu r. subst r. rewrite script_run. unfold expected.
  destruct (ChatGroq_init env (client_config w env)); [done|].
  rewrite Hu. cbn [truthy from_option id negb String.eqb Ascii.eqb].
  destruct (ChatGroq_invoke env (client_config w env) _) as [e|text] eqn:He;
    [done|].
  intros _. exists (client_config w env), (prompt_of w fresh_session "Hello"), text.
  split_and!; [by vm_compute | done | by vm_compute | by vm_compute].
Qed.

Lemma hello_scenario_witness :
  ∃ (cfg : ClientConfig) (prompt : list Turn) (text : string),
    service_calls
      (events (run_script (default_widgets (Some "Hello")) (replying "Hi there")
                 fresh_session))
    = [(cfg, prompt)]
    ∧ ChatGroq_invoke (replying "Hi there") cfg prompt = inr text
    ∧ store_writes
        (events (run_script (default_widgets (Some "Hello")) (replying "Hi there")
                   fresh_session))
      = [ [];
          [mkTurn "user" "Hello"];
          [mkTurn "user" "Hello"; mkTurn "assistant" text] ]
    ∧ stored
        (after (run_script (default_widgets (Some "Hello")) (replying "Hi there")
                  fresh_session))
      = [mkTurn "user" "Hello"; mkTurn "assistant" text].
Proof.
  apply (hello_scenario (default_widgets (Some "Hello")) (replying "Hi there"));
    reflexivity.
Defined.

(** ** The prompt *)

(** The history object after a submission that was answered: what it held,
    then the whole store as sent, then the answer. *)
Lemma history_after_answer (w : Widgets) (env : Env) (s : Session) :
  submits w → outcome (run_script w env s) = Done tt →
  history (after (run_script w env s))
  = history s ++ stored (after (run_script w env s)).
Proof.
  intros (u & Hu & Hne)%truthy_true. rewrite script_run. unfold expected.
  destruct (ChatGroq_init env (client_config w env)); [done|].
  rewrite Hu. cbn [truthy from_option id].
  destruct (String.eqb_spec u ""); [done|]. cbn [negb].
  by destruct (ChatGroq_invoke env (client_config w env) _).
Qed.

(** The first call of a new session carries the system message and the
    store, once. *)
Lemma first_prompt (w : Widgets) (u : string) :
  prompt_of w fresh_session u
  = [system_message (language_name (w_language w)); mkTurn "user" u].
Proof. reflexivity. Qed.

(** C1. The prompt of a call is the system message followed by the
    messages of the history object and then by the whole store.  In a new
    session, a first submission "a" answered "x" and then a second
    submission "b" give at the second call the prompt
    system, a, x, a, x, b, while the store holds a, x, b: the first exchange
    is sent twice. *)
Theorem second_prompt_repeats_first_exchange :
  let s1 := run_session fresh_session
              [(default_widgets (Some "a"), replying "x")] in
  let r := run_script (default_widgets (Some "b")) (replying "y") s1 in
  stored s1 = [mkTurn "user" "a"; mkTurn "assistant" "x"]
  ∧ history s1 = [mkTurn "user" "a"; mkTurn "assistant" "x"]
  ∧ map snd (service_calls (events r))
    = [ [ system_message "English";
          mkTurn "user" "a"; mkTurn "assistant" "x";
          mkTurn "user" "a"; mkTurn "assistant" "x";
          mkTurn "user" "b" ] ]
  ∧ store_writes (events r)
    = [ [mkTurn "user" "a"; mkTurn "assistant" "x"; mkTurn "user" "b"];
        [mkTurn "user" "a"; mkTurn "assistant" "x"; mkTurn "user" "b";
         mkTurn "assistant" "y"] ].
Proof. cbn zeta. split_and!; by vm_compute. Qed.

(** ** The credential *)

(** C7, as stated, fails.  With a key that the constructor accepts and the
    service refuses, a run without a submission ends well, and a run with
    the submission "Hello" raises only at the call, the user turn already
    in the store: neither run fails fast. *)
Lemma credential_failure_is_late :
  let idle := run_script (default_widgets None) (refusing auth_error)
                fresh_session in
  let sent := run_script (default_widgets (Some "Hello")) (refusing auth_error)
                fresh_session in
  credential_unusable (refusing auth_error)
  ∧ outcome idle = Done tt
  ∧ outcome sent = Raised auth_error
  ∧ stored (after sent) = [mkTurn "user" "Hello"]
  ∧ ¬ fails_fast idle
  ∧ ¬ fails_fast sent.
Proof.
  cbn zeta. split_and!.
  - right. intros cfg prompt _. by exists auth_error.
  - by vm_compute.
  - by vm_compute.
  - by vm_compute.
  - intros [[e He] _]. vm_compute in He. discriminate.
  - intros (_ & Hw & _). vm_compute in Hw. discriminate.
Qed.

(** C7, amended.  The script does not examine the credential: on every run
    it gives the value of GROQ_API_KEY, set or not, to the client
    constructor before anything else.  When the constructor raises, the
    run ends there with that exception, the store untouched.  When the
    constructor accepts, a run without a submission ends well and calls
    nothing, and a submission whose call the service refuses raises the
    service's exception with the user turn already added to the store. *)
Theorem credential_left_to_client (w : Widgets) (env : Env) (s : Session) :
  let r := run_script w env s in
  ∃ cfg : ClientConfig,
    head (events r) = Some (Construct cfg)
    ∧ cfg_api_key cfg = environ env !! "GROQ_API_KEY"
    ∧ (∀ e, ChatGroq_init env cfg = Some e →
         outcome r = Raised e
         ∧ events r = [Construct cfg]
         ∧ ss_messages (after r) = ss_messages s)
    ∧ (ChatGroq_init env cfg = None → ¬ submits w →
         outcome r = Done tt ∧ service_calls (events r) = [])
    ∧ (ChatGroq_init env cfg = None →
       ∀ u e, w_chat_input w = Some u → u ≠ "" →
         (∀ p, ChatGroq_invoke env cfg p = inl e) →
         outcome r = Raised e
         ∧ stored (after r) = stored s ++ [mkTurn "user" u]).
Proof.
  cbn zeta. exists (client_config w env). split_and!.
  - apply run_first_event.
  - reflexivity.
  - intros e He. rewrite script_run. unfold expected. by rewrite He.
  - intros Hinit Hs. rewrite run_service_calls, script_run. unfold expected.
    rewrite Hinit. unfold submits in Hs.
    destruct (truthy (w_chat_input w)) eqn:Ht; [done|].
    split; [done|]. destruct (w_chat_input w) as [u|]; [|done].
    cbn in Ht. by rewrite Ht.
  - intros Hinit u e Hu Hne He. rewrite script_run. unfold expected.
    rewrite Hinit, Hu. cbn [truthy from_option id].
    destruct (String.eqb_spec u ""); [done|]. cbn [negb]. by rewrite He.
Qed.

Lemma credential_left_to_client_witness :
  outcome (run_script (default_widgets (Some "Hello"))
             (unconstructible (ValueError "api_key must be set"))
             fresh_session)
  = Raised (ValueError "api_key must be set").
Proof.
  destruct (credential_left_to_client (default_widgets (Some "Hello"))
              (unconstructible (ValueError "api_key must be set"))
              fresh_session)
    as (cfg & _ & _ & Hraise & _).
  apply (Hraise (ValueError "api_key must be set")). reflexivity.
Defined.

(** ** The input guard *)

(** C9, as stated, fails.  An empty text in the input box is not processed
    like another: the run is the run of a page with nothing sent, the
    store stays empty and the service is not called, whereas "Hello" sent
    to the same page is stored and sent. *)
Lemma empty_input_is_skipped :
  let empty := run_script (default_widgets (Some "")) (replying "x")
                 fresh_session in
  let hello := run_script (default_widgets (Some "Hello")) (replying "x")
                 fresh_session in
  ¬ processed "" empty
  ∧ stored (after empty) = []
  ∧ service_calls (events empty) = []
  ∧ empty = run_script (default_widgets None) (replying "x") fresh_session
  ∧ processed "Hello" hello.
Proof.
  cbn zeta. split_and!.
  - intros [_ Hc]. apply Hc. by vm_compute.
  - by vm_compute.
  - by vm_compute.
  - by vm_compute.
  - split.
    + vm_compute. left.
    + vm_compute. discriminate.
Qed.

(** C9, amended.  The only test made on the input is [if user_input:].  A
    text that is not empty, whatever it is, is added to the store as sent
    and is the last message of the prompt of the call, once the client is
    constructed.  The empty text is set aside by the test: the run is the
    one of a page with nothing sent, it leaves the store as found and
    calls nothing. *)
Theorem input_guard (w : Widgets) (env : Env) (s : Session) (u : string) :
  w_chat_input w = Some u →
  let r := run_script w env s in
  (u ≠ "" → ChatGroq_init env (client_config w env) = None →
     stored s ++ [mkTurn "user" u] ∈ store_writes (events r)
     ∧ ∃ cfg before,
         service_calls (events r) = [(cfg, before ++ [mkTurn "user" u])])
  ∧ (u = "" →
     r = run_script (without_input w) env s
     ∧ stored (after r) = stored s
     ∧ service_calls (events r) = []).
Proof.
  intros Hu r. subst r. split.
  - intros Hne Hinit. split.
    + rewrite script_run. unfold expected. rewrite Hinit, Hu.
      cbn [truthy from_option id]. destruct (String.eqb_spec u ""); [done|].
      cbn [negb].
      destruct (ChatGroq_invoke env (client_config w env) _); cbn [events];
        autorewrite with trace;
        cbn [is_stored from_option app store_writes omap list_omap];
        set_solver.
    + rewrite run_service_calls, Hinit, Hu.
      destruct (String.eqb_spec u ""); [done|]. cbn [negb].
      exists (client_config w env),
        (system_message (language_name (w_language w)) :: history s ++ stored s).
      unfold prompt_of. cbn [app]. by rewrite <- app_assoc.
  - intros ->. split_and!.
    + rewrite !script_run. unfold expected. rewrite Hu. reflexivity.
    + apply run_idle. by rewrite Hu.
    + rewrite run_service_calls, Hu.
      by destruct (ChatGroq_init env (client_config w env)).
Qed.

Lemma input_guard_witness :
  stored (after (run_script (default_widgets (Some "")) (replying "x")
                   fresh_session))
  = stored fresh_session
  ∧ [] ++ [mkTurn "user" "  "]
    ∈ store_writes
        (events (run_script (default_widgets (Some "  ")) (replying "x")
                   fresh_session)).
Proof.
  split.
  - apply (input_guard (default_widgets (Some "")) (replying "x")
             fresh_session ""); reflexivity.
  - apply (input_guard (default_widgets (Some "  ")) (replying "x")
             fresh_session "  "); [reflexivity | discriminate | reflexivity].
Defined.

(** * Further properties of the page *)

Lemma drawn_app (a b : list Event) : drawn (a ++ b) = drawn a ++ drawn b.
Proof. apply omap_app. Qed.

Lemma drawn_cons (ev : Event) (evs : list Event) :
  drawn (ev :: evs) = from_option (λ d, [d]) [] (is_render ev) ++ drawn evs.
Proof. unfold drawn. cbn. by destruct (is_render ev). Qed.

Lemma drawn_renders (l : list Turn) : drawn (renders l) = as_drawn l.
Proof. induction l as [|t l IH]; [done|]. cbn. f_equal. exact IH. Qed.

Lemma drawn_init_writes (s : Session) : drawn (init_writes s) = [].
Proof. unfold init_writes. by destruct (ss_messages s). Qed.

Lemma constructions_app (a b : list Event) :
  constructions (a ++ b) = constructions a ++ constructions b.
Proof. apply omap_app. Qed.

Lemma constructions_cons (ev : Event) (evs : list Event) :
  constructions (ev :: evs)
  = from_option (λ c, [c]) [] (is_construct ev) ++ constructions evs.
Proof. unfold constructions. cbn. by destruct (is_construct ev). Qed.

Lemma constructions_renders (l : list Turn) : constructions (renders l) = [].
Proof. induction l; [done | by cbn]. Qed.

Lemma constructions_init_writes (s : Session) :
  constructions (init_writes s) = [].
Proof. unfold init_writes. by destruct (ss_messages s). Qed.

#[local] Hint Rewrite drawn_app drawn_cons drawn_renders drawn_init_writes
  constructions_app constructions_cons constructions_renders
  constructions_init_writes : trace.

Ltac read_trace :=
  cbn [events after outcome]; autorewrite with trace;
  cbn [is_render is_construct is_invoke is_stored from_option app
       drawn constructions service_calls store_writes omap list_omap];
  rewrite ?app_nil_r.

(** X1. When the client was constructed and the run carries a submission,
    the chat messages drawn by the run are exactly the turns of the store
    the run leaves, in order, each under its role: the turns found, then
    the user turn, then the answer if there is one. *)
Theorem page_shows_the_store (w : Widgets) (env : Env) (s : Session) :
  submits w →
  ChatGroq_init env (client_config w env) = None →
  drawn (events (run_script w env s))
  = as_drawn (stored (after (run_script w env s))).
Proof.
  intros Hs Hinit. unfold submits in Hs.
  rewrite script_run. unfold expected. rewrite Hinit, Hs.
  destruct (ChatGroq_invoke env (client_config w env) _) as [e|text];
    read_trace; unfold as_drawn, stored; cbn [holding ss_messages from_option id];
    fold (stored s); rewrite !map_app; cbn [map]; by rewrite <- ?app_assoc.
Qed.

Lemma page_shows_the_store_witness :
  drawn (events (run_script (default_widgets (Some "b")) (replying "y")
                   (run_session fresh_session
                      [(default_widgets (Some "a"), replying "x")])))
  = [("user", "a"); ("assistant", "x"); ("user", "b"); ("assistant", "y")].
Proof.
  rewrite page_shows_the_store; reflexivity.
Defined.

(** X2. When the client was constructed and the run carries no submission
    (nothing sent, or the empty text), the run draws the turns of the
    store and then, under the empty name, the greeting of the selected
    language, which [greetings] has for every language of the select box.
    The greeting is drawn however long the conversation already is. *)
Theorem greeting_on_every_idle_run (w : Widgets) (env : Env) (s : Session) :
  ¬ submits w →
  ChatGroq_init env (client_config w env) = None →
  ∃ g : string,
    greetings !! language_name (w_language w) = Some g
    ∧ outcome (run_script w env s) = Done tt
    ∧ drawn (events (run_script w env s)) = as_drawn (stored s) ++ [("", g)].
Proof.
  intros Hs Hinit. unfold submits in Hs.
  destruct (truthy (w_chat_input w)) eqn:Ht; [done|].
  exists (default "" (greetings !! language_name (w_language w))).
  split; [apply greetings_lookup|].
  rewrite script_run. unfold expected. rewrite Hinit, Ht.
  split; [done|]. by read_trace.
Qed.

Lemma greeting_on_every_idle_run_witness :
  ∃ g : string,
    greetings !! "Hindi" = Some g
    ∧ outcome (run_script (mkWidgets Hindi Mixtral 0.5%float 100 None)
                 (replying "y")
                 (run_session fresh_session
                    [(default_widgets (Some "a"), replying "x")]))
      = Done tt
    ∧ drawn (events (run_script (mkWidgets Hindi Mixtral 0.5%float 100 None)
                       (replying "y")
                       (run_session fresh_session
                          [(default_widgets (Some "a"), replying "x")])))
      = as_drawn [mkTurn "user" "a"; mkTurn "assistant" "x"] ++ [("", g)].
Proof.
  apply (greeting_on_every_idle_run (mkWidgets Hindi Mixtral 0.5%float 100 None)
           (replying "y")
           (run_session fresh_session
              [(default_widgets (Some "a"), replying "x")])).
  - discriminate.
  - reflexivity.
Defined.

(** X3. The selections of the sidebar take effect on the run they are made
    in, whatever the session held before: the run constructs exactly one
    client, for the identifier that [model_dict] gives to the model type
    selected now, with the key read from the environment and streaming on,
    and it leaves the selected language and model type in the session. *)
Theorem selections_take_effect_at_once (w : Widgets) (env : Env)
    (s : Session) :
  let r := run_script w env s in
  ∃ cfg : ClientConfig,
    constructions (events r) = [cfg]
    ∧ model_dict !! model_type_name (w_model_type w) = Some (cfg_model cfg)
    ∧ cfg_api_key cfg = environ env !! "GROQ_API_KEY"
    ∧ cfg_streaming cfg = true
    ∧ ss_language (after r) = Some (language_name (w_language w))
    ∧ ss_model (after r) = Some (model_type_name (w_model_type w)).
Proof.
  cbn zeta. exists (client_config w env).
  split_and!; try (rewrite script_run; unfold expected).
  - destruct (ChatGroq_init env (client_config w env)); [done|].
    destruct (truthy (w_chat_input w)); [|by read_trace].
    destruct (ChatGroq_invoke env (client_config w env) _); by read_trace.
  - apply model_dict_lookup.
  - reflexivity.
  - reflexivity.
  - destruct (ChatGroq_init env (client_config w env)); [done|].
    destruct (truthy (w_chat_input w)); [|done].
    by destruct (ChatGroq_invoke env (client_config w env) _).
  - destruct (ChatGroq_init env (client_config w env)); [done|].
    destruct (truthy (w_chat_input w)); [|done].
    by destruct (ChatGroq_invoke env (client_config w env) _).
Qed.

(** X4. The prompt of every call, for every language: the system message,
    whose text is the template of line 118 with [{language}] replaced by
    the language selected on this run and so contains its name; then the
    messages of the history object; then the store as found; then the
    user turn of the submission, last. *)
Theorem prompt_shape (w : Widgets) (env : Env) (s : Session)
    (cfg : ClientConfig) (prompt : list Turn) :
  (cfg, prompt) ∈ service_calls (events (run_script w env s)) →
  ∃ (u text : string),
    w_chat_input w = Some u
    ∧ format system_template
        (input_text {| language := language_name (w_language w);
                       messages := [] |})
      = Some text
    ∧ contains (language_name (w_language w)) text
    ∧ prompt
      = mkTurn "system" text :: history s ++ stored s ++ [mkTurn "user" u].
Proof.
  intros Hin.
  destruct (run_called _ _ _ _ _ Hin) as (u & Hu & _ & _ & _ & ->).
  exists u, (content (system_message (language_name (w_language w)))).
  split_and!; [done | reflexivity | | reflexivity].
  by exists "You are a helpful assistant developed by Mitesh. Answer all questions to the best of your ability and give response in given ", " language.".
Qed.

Lemma prompt_shape_witness :
  ∃ (u text : string),
    Some "hola" = Some u
    ∧ format system_template
        (input_text {| language := "Spanish"; messages := [] |})
      = Some text
    ∧ contains "Spanish" text
    ∧ prompt_of (mkWidgets Spanish LLaMA 0.5%float 10 (Some "hola"))
        fresh_session "hola"
      = mkTurn "system" text :: [] ++ [] ++ [mkTurn "user" u].
Proof.
  apply (prompt_shape (mkWidgets Spanish LLaMA 0.5%float 10 (Some "hola"))
           (replying "x") fresh_session
           (client_config (mkWidgets Spanish LLaMA 0.5%float 10 (Some "hola"))
              (replying "x"))).
  vm_compute. left.
Defined.

(** X5. A run calls the model service at most once, and it calls it exactly
    when it carries a submission and the client was constructed. *)
Theorem at_most_one_call (w : Widgets) (env : Env) (s : Session) :
  let r := run_script w env s in
  length (service_calls (events r)) ≤ 1
  ∧ (service_calls (events r) ≠ []
     ↔ submits w ∧ ChatGroq_init env (client_config w env) = None).
Proof.
  cbn zeta. rewrite run_service_calls. unfold submits.
  destruct (ChatGroq_init env (client_config w env)) as [e|].
  - cbn. split; [lia|]. split; [done | by intros [_ ?]].
  - destruct (w_chat_input w) as [u|]; cbn [truthy].
    + destruct (negb (u =? "")%string); cbn; (split; [lia|]).
      * split; done.
      * split; [done | by intros [? _]].
    + cbn. split; [lia|]. split; [done | by intros [? _]].
Qed.

(** X6. A submission that ends without an exception: the service was
    called once and answered some text; the store is the one found with
    the user turn, holding the input as sent, and the assistant turn,
    holding the text as answered, added at its end; and the history object
    has been given the whole of that store after what it held. *)
Theorem answer_is_stored_as_received (w : Widgets) (env : Env)
    (s : Session) :
  submits w →
  outcome (run_script w env s) = Done tt →
  ∃ (u : string) (cfg : ClientConfig) (prompt : list Turn) (text : string),
    w_chat_input w = Some u
    ∧ service_calls (events (run_script w env s)) = [(cfg, prompt)]
    ∧ ChatGroq_invoke env cfg prompt = inr text
    ∧ stored (after (run_script w env s))
      = stored s ++ [mkTurn "user" u; mkTurn "assistant" text]
    ∧ history (after (run_script w env s))
      = history s ++ stored s ++ [mkTurn "user" u; mkTurn "assistant" text].
Proof.
  intros (u & Hu & Hne)%truthy_true.
  rewrite run_service_calls, script_run. unfold expected.
  destruct (ChatGroq_init env (client_config w env)); [done|].
  rewrite Hu. cbn [truthy from_option id].
  destruct (String.eqb_spec u ""); [done|]. cbn [negb].
  destruct (ChatGroq_invoke env (client_config w env) _) as [e|text] eqn:He;
    [done|].
  intros _. exists u, (client_config w env), (prompt_of w s u), text.
  split_and!; [done | done | done | |].
  - cbn. by rewrite <- app_assoc.
  - unfold history at 1. cbn. by rewrite <- !app_assoc.
Qed.

Lemma answer_is_stored_as_received_witness :
  ∃ (u : string) (cfg : ClientConfig) (prompt : list Turn) (text : string),
    Some " two  words " = Some u
    ∧ service_calls
        (events (run_script (default_widgets (Some " two  words "))
                   (replying "") fresh_session))
      = [(cfg, prompt)]
    ∧ ChatGroq_invoke (replying "") cfg prompt = inr text
    ∧ stored (after (run_script (default_widgets (Some " two  words "))
                       (replying "") fresh_session))
      = [] ++ [mkTurn "user" u; mkTurn "assistant" text]
    ∧ history (after (run_script (default_widgets (Some " two  words "))
                        (replying "") fresh_session))
      = [] ++ [] ++ [mkTurn "user" u; mkTurn "assistant" text].
Proof.
  apply (answer_is_stored_as_received (default_widgets (Some " two  words "))
           (replying "") fresh_session); reflexivity.
Defined.

(** X7. A run that carries no submission leaves the conversation alone,
    whatever the selections and whatever the client does: the store and
    the history object hold what they held and the service is not
    called. *)
Theorem idle_run_keeps_conversation (w : Widgets) (env : Env)
    (s : Session) :
  ¬ submits w →
  let r := run_script w env s in
  stored (after r) = stored s
  ∧ history (after r) = history s
  ∧ service_calls (events r) = [].
Proof.
  intros Hs. unfold submits in Hs.
  destruct (truthy (w_chat_input w)) eqn:Ht; [done|]. cbn zeta.
  split_and!.
  - by apply run_idle.
  - rewrite script_run. unfold expected.
    destruct (ChatGroq_init env (client_config w env)); [done|].
    by rewrite Ht.
  - rewrite run_service_calls.
    destruct (ChatGroq_init env (client_config w env)); [done|].
    destruct (w_chat_input w) as [u|]; [|done]. cbn in Ht. by rewrite Ht.
Qed.

Lemma idle_run_keeps_conversation_witness :
  stored (after (run_script (mkWidgets German Gemma2 0%float 2048 None)
                   (refusing auth_error)
                   (run_session fresh_session
                      [(default_widgets (Some "a"), replying "x")])))
  = [mkTurn "user" "a"; mkTurn "assistant" "x"].
Proof.
  apply (idle_run_keeps_conversation (mkWidgets German Gemma2 0%float 2048 None)
           (refusing auth_error)
           (run_session fresh_session
              [(default_widgets (Some "a"), replying "x")])).
  discriminate.
Defined.

Lemma at_most_one_call_witness :
  service_calls
    (events (run_script (default_widgets (Some "Hello")) (refusing auth_error)
               fresh_session))
  ≠ [].
Proof.
  apply (at_most_one_call (default_widgets (Some "Hello")) (refusing auth_error)
           fresh_session).
  split; reflexivity.
Defined.

(** ** Sessions with failed calls *)

Lemma follow_question (l : list Turn) (u : string) :
  answers_follow_questions l →
  answers_follow_questions (l ++ [mkTurn "user" u]).
Proof.
  intros Hl i t Hi Hr.
  destruct (decide (i < length l)) as [Hlt|Hge].
  - rewrite lookup_app_l in Hi by done.
    destruct (Hl i t Hi Hr) as (q & Hne & Hq & Hrq).
    exists q. split_and!; [done | | done].
    rewrite lookup_app_l by lia. done.
  - rewrite lookup_app_r in Hi by lia.
    destruct (i - length l) as [|k]; cbn in Hi; [|done].
    injection Hi as <-. discriminate Hr.
Qed.

Lemma follow_exchange (l : list Turn) (u text : string) :
  answers_follow_questions l →
  answers_follow_questions
    (l ++ [mkTurn "user" u; mkTurn "assistant" text]).
Proof.
  intros Hl.
  change [mkTurn "user" u; mkTurn "assistant" text]
    with ([mkTurn "user" u] ++ [mkTurn "assistant" text]).
  rewrite app_assoc. intros i t Hi Hr.
  destruct (decide (i < length (l ++ [mkTurn "user" u]))) as [Hlt|Hge].
  - rewrite lookup_app_l in Hi by done.
    destruct (follow_question l u Hl i t Hi Hr) as (q & Hne & Hq & Hrq).
    exists q. split_and!; [done | | done].
    rewrite lookup_app_l by lia. done.
  - assert (i = length (l ++ [mkTurn "user" u])) as ->.
    { apply lookup_lt_Some in Hi. rewrite !length_app in *. cbn in *. lia. }
    exists (mkTurn "user" u). rewrite length_app. cbn. split_and!; [lia | | done].
    rewrite lookup_app_l by (rewrite length_app; cbn; lia).
    replace (length l + 1 - 1) with (length l + 0) by lia.
    by rewrite lookup_app_r, Nat.add_0_r, Nat.sub_diag by lia.
Qed.

(** X8. In the store of a session, whatever the runs and whether or not
    calls failed, every assistant turn stands right after a user turn; in
    particular the store never begins with an assistant turn and never
    holds two assistant turns in a row. *)
Theorem every_answer_follows_a_question :
  ∀ runs : list (Widgets * Env),
    answers_follow_questions (stored (run_session fresh_session runs)).
Proof.
  assert (∀ runs s, answers_follow_questions (stored s) →
            answers_follow_questions (stored (run_session s runs))) as H.
  { induction runs as [|[w env] runs IH]; intros s Hs; cbn; [done|].
    apply IH.
    destruct (run_stored w env s)
      as [H|[(u & e & _ & _ & _ & H)|(u & t & _ & _ & _ & H)]]; rewrite H.
    - done.
    - by apply follow_question.
    - by apply follow_exchange. }
  intros runs. apply H. intros i t Hi. done.
Qed.

Lemma every_answer_follows_a_question_witness :
  ∃ q, 2 ≠ 0
    ∧ stored (run_session fresh_session
                [(default_widgets (Some "lost"), refusing auth_error);
                 (default_widgets (Some "again"), replying "x")])
      !! (2 - 1) = Some q
    ∧ role q = "user".
Proof.
  apply (every_answer_follows_a_question
           [(default_widgets (Some "lost"), refusing auth_error);
            (default_widgets (Some "again"), replying "x")]
           2 (mkTurn "assistant" "x")); reflexivity.
Defined.

Lemma users_app (a b : list Turn) : users (a ++ b) = users a + users b.
Proof. unfold users. by rewrite filter_app, length_app. Qed.

Lemma run_users (w : Widgets) (env : Env) (s : Session) :
  users (stored (after (run_script w env s)))
  = users (stored s) + length (service_calls (events (run_script w env s))).
Proof.
  rewrite run_service_calls, script_run. unfold expected.
  destruct (ChatGroq_init env (client_config w env)).
  { change (users (stored s) = users (stored s) + 0). lia. }
  destruct (w_chat_input w) as [u|]; cbn [truthy from_option id].
  - destruct (negb (u =? "")%string).
    + destruct (ChatGroq_invoke env (client_config w env) _) as [e|text];
        cbn [after length];
        unfold stored; cbn [holding ss_messages from_option id]; fold (stored s);
        rewrite ?users_app;
        [change (users [mkTurn "user" u]) with 1
        |change (users [mkTurn "user" u]) with 1;
         change (users [mkTurn "assistant" text]) with 0]; lia.
    + change (users (stored s) = users (stored s) + 0). lia.
  - change (users (stored s) = users (stored s) + 0). lia.
Qed.

Lemma session_users (s : Session) (runs : list (Widgets * Env)) :
  users (stored (run_session s runs))
  = users (stored s) + length (session_calls s runs).
Proof.
  revert s. induction runs as [|[w env] runs IH]; intros s; cbn; [lia|].
  rewrite IH, length_app, run_users. lia.
Qed.

(** X9. Over a session, user turns and calls of the model service go one
    for one: the store holds as many user turns as calls were made, so
    that a user turn is never stored without a call and a call never made
    without its user turn stored. *)
Theorem one_call_per_user_turn :
  ∀ runs : list (Widgets * Env),
    users (stored (run_session fresh_session runs))
    = length (session_calls fresh_session runs).
Proof. intros runs. by rewrite session_users. Qed.

Lemma run_raised_at_call (w : Widgets) (env : Env) (s : Session) (e : Exn) :
  outcome (run_script w env s) = Raised e →
  service_calls (events (run_script w env s)) ≠ [] →
  ∃ u, w_chat_input w = Some u
    ∧ stored (after (run_script w env s)) = stored s ++ [mkTurn "user" u].
Proof.
  rewrite run_service_calls, script_run. unfold expected.
  destruct (ChatGroq_init env (client_config w env)); [by intros _ Hc|].
  destruct (w_chat_input w) as [u|]; [|by intros _ Hc].
  cbn [truthy from_option id]. destruct (negb (u =? "")%string); [|by intros _ Hc].
  destruct (ChatGroq_invoke env (client_config w env) _); [|done].
  intros _ _. by exists u.
Qed.

(** X10. A call that failed is not undone by a later one.  After a
    submission whose call raised and a second one that was answered, the
    store ends with the first user turn, the second user turn and the
    answer: two user turns in a row. *)
Theorem failed_turn_is_kept (w1 w2 : Widgets) (env1 env2 : Env)
    (s : Session) (e : Exn) :
  outcome (run_script w1 env1 s) = Raised e →
  service_calls (events (run_script w1 env1 s)) ≠ [] →
  submits w2 →
  outcome (run_script w2 env2 (after (run_script w1 env1 s))) = Done tt →
  ∃ u1 u2 text,
    w_chat_input w1 = Some u1 ∧ w_chat_input w2 = Some u2
    ∧ stored (run_session s [(w1, env1); (w2, env2)])
      = stored s ++ [mkTurn "user" u1; mkTurn "user" u2;
                     mkTurn "assistant" text].
Proof.
  intros Hr Hc Hs2 Hd. cbn [run_session].
  destruct (run_submission_done w2 env2 _ Hs2 Hd) as (u2 & text & Hu2 & _ & H2).
  destruct (run_raised_at_call w1 env1 s e Hr Hc) as (u1 & Hu1 & H1).
  exists u1, u2, text. rewrite H2, H1, <- app_assoc. done.
Qed.

Lemma failed_turn_is_kept_witness :
  ∃ u1 u2 text,
    Some "lost" = Some u1 ∧ Some "again" = Some u2
    ∧ stored (run_session fresh_session
                [(default_widgets (Some "lost"), refusing auth_error);
                 (default_widgets (Some "again"), replying "x")])
      = [] ++ [mkTurn "user" u1; mkTurn "user" u2; mkTurn "assistant" text].
Proof.
  apply (failed_turn_is_kept (default_widgets (Some "lost"))
           (default_widgets (Some "again")) (refusing auth_error)
           (replying "x") fresh_session auth_error).
  - reflexivity.
  - vm_compute. discriminate.
  - reflexivity.
  - reflexivity.
Defined.

(** ** The history object *)

Lemma run_history_prefix (w : Widgets) (env : Env) (s : Session) :
  history s `prefix_of` history (after (run_script w env s)).
Proof.
  rewrite script_run. unfold expected.
  destruct (ChatGroq_init env (client_config w env)); [done|].
  destruct (truthy (w_chat_input w)); [|done].
  destruct (ChatGroq_invoke env (client_config w env) _); [done|].
  unfold history at 2. cbn. by apply prefix_app_r.
Qed.

(** X11. The history object handed to the wrapper is append-only as well:
    over the runs of a session, what it held stays a prefix of what it
    holds later; it changes only on a submission that was answered. *)
Theorem history_is_append_only (s : Session) (runs : list (Widgets * Env)) :
  (∃ added, history (run_session s runs) = history s ++ added)
  ∧ (∀ w env, outcome (run_script w env s) ≠ Done tt ∨ ¬ submits w →
       history (after (run_script w env s)) = history s).
Proof.
  split.
  - revert s. induction runs as [|[w env] runs IH]; intros s; cbn.
    + exists []. by rewrite app_nil_r.
    + change (history s `prefix_of`
                history (run_session (after (run_script w env s)) runs)).
      etrans; [apply run_history_prefix | apply IH].
  - intros w env. unfold submits. rewrite script_run. unfold expected.
    destruct (ChatGroq_init env (client_config w env)); [done|].
    destruct (truthy (w_chat_input w)); [|done].
    destruct (ChatGroq_invoke env (client_config w env) _); [done|].
    intros [H|H]; by destruct H.
Qed.

Lemma history_is_append_only_witness :
  history (after (run_script (default_widgets (Some "lost"))
                    (refusing auth_error)
                    (run_session fresh_session
                       [(default_widgets (Some "a"), replying "x")])))
  = [mkTurn "user" "a"; mkTurn "assistant" "x"].
Proof.
  apply (history_is_append_only
           (run_session fresh_session
              [(default_widgets (Some "a"), replying "x")]) []).
  left. discriminate.
Defined.

Lemma run_idle_history (w : Widgets) (env : Env) (s : Session) :
  truthy (w_chat_input w) = false →
  history (after (run_script w env s)) = history s.
Proof.
  intros Ht. rewrite script_run. unfold expected.
  destruct (ChatGroq_init env (client_config w env)); [done|].
  by rewrite Ht.
Qed.

Lemma run_answered_history (w : Widgets) (env : Env) (s : Session) :
  truthy (w_chat_input w) = true →
  outcome (run_script w env s) = Done tt →
  length (history (after (run_script w env s)))
  = length (history s) + length (stored s) + 2.
Proof.
  intros Ht. rewrite script_run. unfold expected.
  destruct (ChatGroq_init env (client_config w env)); [done|].
  rewrite Ht.
  destruct (ChatGroq_invoke env (client_config w env) _); [done|].
  intros _. unfold history at 1. cbn. rewrite !length_app. cbn. lia.
Qed.

Lemma session_history_length (s : Session) (runs : list (Widgets * Env)) :
  all_answered s runs →
  length (history (run_session s runs))
  = length (history s) + submissions runs * length (stored s)
    + submissions runs * (submissions runs + 1).
Proof.
  revert s. induction runs as [|[w env] runs IH]; intros s Hd;
    cbn [run_session submissions].
  - lia.
  - destruct Hd as [Hd Hds]. rewrite (IH _ Hds). unfold submits in Hd.
    destruct (truthy (w_chat_input w)) eqn:Ht.
    + rewrite (run_answered_history w env s Ht (Hd eq_refl)).
      destruct (run_submission_done w env s Ht (Hd eq_refl))
        as (u & text & _ & _ & Hst).
      rewrite Hst, !length_app. cbn [length]. lia.
    + rewrite (run_idle_history w env s Ht), (run_idle w env s Ht). lia.
Qed.

(** X12. In a new session, after any runs of which [n] carry a submission,
    each of these answered, the history object holds [n * (n + 1)]
    messages, where the store holds [2 * n] turns; and the prompt of the
    call of one more submission has [(n + 1) * (n + 2)] messages.  What is
    sent grows with the square of the length of the conversation.  Runs
    that carry no submission may stand anywhere among the others. *)
Theorem prompt_grows_quadratically (runs : list (Widgets * Env)) :
  all_answered fresh_session runs →
  let n := submissions runs in
  let s := run_session fresh_session runs in
  length (history s) = n * (n + 1)
  ∧ ∀ w env cfg prompt,
      (cfg, prompt) ∈ service_calls (events (run_script w env s)) →
      length prompt = (n + 1) * (n + 2).
Proof.
  intros Hd n s.
  assert (length (history s) = n * (n + 1)) as Hh.
  { subst s n. rewrite (session_history_length _ _ Hd). cbn. lia. }
  split; [exact Hh|].
  intros w env cfg prompt Hin.
  destruct (run_called _ _ _ _ _ Hin) as (u & _ & _ & _ & _ & ->).
  unfold prompt_of. cbn [length]. rewrite !length_app, Hh.
  subst s n. rewrite (session_length _ _ Hd). cbn. lia.
Qed.

Lemma prompt_grows_quadratically_witness :
  length (history (run_session fresh_session
                     [(default_widgets None, replying "unused");
                      (default_widgets (Some "a"), replying "x");
                      (default_widgets (Some "b"), replying "y");
                      (mkWidgets French Mixtral 0%float 1 None,
                       unconstructible auth_error);
                      (default_widgets (Some "c"), replying "z")]))
  = 3 * (3 + 1).
Proof.
  apply (prompt_grows_quadratically
           [(default_widgets None, replying "unused");
            (default_widgets (Some "a"), replying "x");
            (default_widgets (Some "b"), replying "y");
            (mkWidgets French Mixtral 0%float 1 None,
             unconstructible auth_error);
            (default_widgets (Some "c"), replying "z")]).
  cbn [all_answered]. split_and!; try done; intros _; by vm_compute.
Defined.

(** ** Exceptions *)

Lemma run_raised_by_client (w : Widgets) (env : Env) (s : Session) (e : Exn) :
  outcome (run_script w env s) = Raised e →
  ChatGroq_init env (client_config w env) = Some e
  ∨ ∃ p, service_calls (events (run_script w env s))
         = [(client_config w env, p)]
         ∧ ChatGroq_invoke env (client_config w env) p = inl e.
Proof.
  rewrite run_service_calls, script_run. unfold expected.
  destruct (ChatGroq_init env (client_config w env)) as [e'|];
    [intros [= ->]; by left|].
  destruct (w_chat_input w) as [u|]; cbn [truthy from_option id]; [|done].
  destruct (negb (u =? "")%string); [|done].
  destruct (ChatGroq_invoke env (client_config w env) _) as [e'|text] eqn:He;
    [|done].
  intros [= ->]. right. by eexists.
Qed.

(** X13. In every session the page reaches from a new one, whatever its
    earlier runs were and however they ended, the script raises nothing of
    its own: when the client constructor accepts its arguments and the
    service answers the prompt it is given, the run ends without an
    exception.  The lookups of [model_dict] and [greetings] and the reads
    of the session keys never fail, because the run itself has set what
    they read. *)
Theorem run_completes (runs : list (Widgets * Env)) (w : Widgets)
    (env : Env) :
  (∀ cfg, ChatGroq_init env cfg = None) →
  (∀ cfg prompt, ∃ text, ChatGroq_invoke env cfg prompt = inr text) →
  outcome (run_script w env (run_session fresh_session runs)) = Done tt.
Proof.
  intros Hinit Hans.
  destruct (outcome (run_script w env (run_session fresh_session runs)))
    as [[]|e] eqn:Ho; [done|].
  destruct (run_raised_by_client _ _ _ _ Ho) as [He|(p & _ & He)].
  - by rewrite Hinit in He.
  - destruct (Hans (client_config w env) p) as [text Ht]. congruence.
Qed.

Lemma run_completes_witness :
  outcome (run_script (mkWidgets French Mixtral 0.25%float 512 (Some "salut"))
             (replying "bonjour")
             (run_session fresh_session
                [(default_widgets None, unconstructible auth_error);
                 (default_widgets (Some "lost"), refusing auth_error);
                 (mkWidgets German Gemma2 1%float 2048 (Some "a"),
                  replying "x")]))
  = Done tt.
Proof.
  apply run_completes.
  - reflexivity.
  - intros cfg prompt. by exists "bonjour".
Defined.

(** ** The sliders *)



